(** * The generate/messages routes of the AI chat server

    A shallow embedding of [registerRoutes] (server routes): the
    [POST /api/generate] and [GET /api/messages] handlers, together with
    the parts of the runtime they rely on (JavaScript strings and
    [String.prototype.trim]) and the collaborators they call (the prompt
    schema, the text generator and the message store).

    Each request is one atomic step on a [World]: the message store plus
    a log of the calls the handlers made to their collaborators. *)

From Stdlib Require Import List NArith ZArith Bool String Ascii DecimalString Lia.
Import ListNotations.

(** ** JavaScript strings *)

Module JS.

(** A JavaScript string is a sequence of UTF-16 code units; [length]
    counts code units. *)
Definition code_unit := N.
Definition jsstring := list code_unit.

Definition String_length (s : jsstring) : N := N.of_nat (List.length s).

(** A literal whose characters are all ASCII. *)
Definition lit (s : string) : jsstring :=
  List.map (fun a => N_of_ascii a) (list_ascii_of_string s).

(** ECMAScript WhiteSpace and LineTerminator code points, the characters
    [trim] strips (all of them are in the basic plane, so one code unit
    each). *)
Definition isWhiteSpace (c : code_unit) : bool :=
  ((c =? 0x9) || (c =? 0xA) || (c =? 0xB) || (c =? 0xC) || (c =? 0xD)
   || (c =? 0x20) || (c =? 0xA0) || (c =? 0x1680)
   || ((0x2000 <=? c) && (c <=? 0x200A))
   || (c =? 0x2028) || (c =? 0x2029) || (c =? 0x202F) || (c =? 0x205F)
   || (c =? 0x3000) || (c =? 0xFEFF))%N.

Fixpoint trimStart (s : jsstring) : jsstring :=
  match s with
  | [] => []
  | c :: t => if isWhiteSpace c then trimStart t else s
  end.

Definition trimEnd (s : jsstring) : jsstring := rev (trimStart (rev s)).

(** [String.prototype.trim] *)
Definition trim (s : jsstring) : jsstring := trimEnd (trimStart s).

(** Truthiness of a string: only the empty string is falsy. *)
Definition truthy (s : jsstring) : bool :=
  match s with [] => false | _ :: _ => true end.

(** [a || b] on strings. *)
Definition or_else (a b : jsstring) : jsstring := if truthy a then a else b.

(** [Math.floor(n / 4)] for a non-negative integer [n]. *)
Definition floor_div4 (n : N) : N := (n / 4)%N.

(** Request bodies, as [express.json()] hands them to the handler. *)
#[warnings="-register-all"]
Inductive json : Type :=
| JNull
| JBool (b : bool)
| JNumber (n : N)
| JString (s : jsstring)
| JArray (items : list json)
| JObject (fields : list (jsstring * json)).

Definition jsstring_eqb (a b : jsstring) : bool :=
  if list_eq_dec N.eq_dec a b then true else false.

Fixpoint get_field (k : jsstring) (fields : list (jsstring * json)) : option json :=
  match fields with
  | [] => None
  | (k', v) :: rest => if jsstring_eqb k k' then Some v else get_field k rest
  end.

End JS.
Import JS.

(** ** Data model *)

Definition ID := N.
Definition Date := N.

Module Schema.

(** [Message] of the shared schema. *)
Record Message := mkMessage {
  id : ID;
  prompt : jsstring;
  response : jsstring;
  createdAt : Date
}.

(** [InsertMessage]: what the handler passes to [createMessage]. *)
Record InsertMessage := mkInsert {
  ins_prompt : jsstring;
  ins_response : jsstring
}.

End Schema.
Import Schema.

(** One issue of a [ZodError]. *)
Record ZodIssue := mkIssue {
  path : list jsstring;
  issue_message : jsstring
}.

(** What the handler's [catch] can receive. *)
Inductive exn : Type :=
| ZodError (errors : list ZodIssue)
| Error (message : jsstring).

(** The JSON bodies the two routes send. *)
Inductive Body : Type :=
| ErrorBody (error : jsstring) (details : option (list ZodIssue))
| GenerateBody (id : ID) (prompt response : jsstring) (createdAt : Date) (tokens : N)
| MessagesBody (messages : list Message).

Record Response := mkResponse {
  status : N;
  body : Body
}.

(** [res.status(code).json(b)] and [res.json(b)] (status 200). *)
Definition res_status_json (code : N) (b : Body) : Response := mkResponse code b.
Definition res_json (b : Body) : Response := mkResponse 200 b.

(** ** The world a handler runs in *)

(** Calls a handler makes to its collaborators, in order. *)
Inductive Call : Type :=
| CallGenerateText (p : jsstring)
| CallCreateMessage (m : InsertMessage)
| CallGetMessages.

(** The store's map, in insertion order (a JavaScript [Map]). *)
Definition MessageMap := list (ID * Message).

Record World := mkWorld {
  storage : MessageMap;
  calls : list Call
}.

(** What the environment decides for one request: the generator's answer
    (a string, or a failure with its message) and the clock. *)
Record Env := mkEnv {
  generate_outcome : jsstring -> jsstring + jsstring;
  now : Date
}.

(** ** A state-and-exception monad for handler bodies *)

Definition M (A : Type) : Type := World -> (exn + A) * World.

Definition ret {A} (a : A) : M A := fun w => (inr a, w).

Definition throw {A} (e : exn) : M A := fun w => (inl e, w).

Definition bind {A B} (m : M A) (k : A -> M B) : M B :=
  fun w =>
    match m w with
    | (inl e, w') => (inl e, w')
    | (inr a, w') => k a w'
    end.

Declare Scope handler_scope.
Delimit Scope handler_scope with handler.
Notation "x <- m ;; k" := (bind m (fun x => k))
  (at level 61, m at next level, right associativity) : handler_scope.

(** [try { body } catch (error) { handler }] where the catch block only
    builds the response. *)
Definition try_catch {A} (body : M A) (handler : exn -> A) : World -> A * World :=
  fun w =>
    match body w with
    | (inr a, w') => (a, w')
    | (inl e, w') => (handler e, w')
    end.

Definition log_call (c : Call) (w : World) : World :=
  mkWorld (storage w) (calls w ++ [c]).

(** ** The collaborators *)

(** Modelled from the spec: the message store ([storage], whose source is
    not part of the routes file), "an in-memory map from identifier to a
    prompt/response record".  [createMessage] "assigns a fresh unique id
    and current timestamp, inserts, returns the stored record";
    [getMessages] "returns all stored messages in insertion order". *)
Module Storage.

Definition keys (m : MessageMap) : list ID := List.map fst m.

(** [Array.from(map.values())] *)
Definition values (m : MessageMap) : list Message := List.map snd m.

(** [map.set(k, v)]: a present key keeps its place and gets the new
    value, an absent key is added at the end. *)
Fixpoint set (k : ID) (v : Message) (m : MessageMap) : MessageMap :=
  match m with
  | [] => [(k, v)]
  | (k', v') :: rest =>
      if (k =? k')%N then (k, v) :: rest else (k', v') :: set k v rest
  end.

(** Modelled from the spec: the choice of "a fresh unique id" (the
    generator of identifiers is missing): one above every key in use. *)
Definition fresh_id (m : MessageMap) : ID :=
  N.succ (fold_right N.max 0%N (keys m)).

(** Modelled from the spec: [createMessage] (its source is missing),
    "assigns a fresh unique id and current timestamp, inserts, returns the
    stored record". *)
Definition createMessage (env : Env) (ins : InsertMessage) : M Message :=
  fun w =>
    let message :=
      mkMessage (fresh_id (storage w)) (ins_prompt ins) (ins_response ins) (now env) in
    (inr message,
     mkWorld (set (id message) message (storage w))
             (calls w ++ [CallCreateMessage ins])).

(** Modelled from the spec: [getMessages] (its source is missing),
    "returns all stored messages in insertion order". *)
Definition getMessages : M (list Message) :=
  fun w => (inr (values (storage w)), log_call CallGetMessages w).

End Storage.

(** The external generator, [generateText(prompt)]: the environment
    decides whether it returns a string or throws an [Error]. *)
Definition generateText (env : Env) (p : jsstring) : M jsstring :=
  fun w =>
    match generate_outcome env p with
    | inr text => (inr text, log_call (CallGenerateText p) w)
    | inl message => (inl (Error message), log_call (CallGenerateText p) w)
    end.

(** Modelled from the spec: the prompt schema of the shared schema module
    (not among the sources), "body [{prompt: string}]": an object whose
    [prompt] field is a string parses to that string, anything else is a
    [ZodError]. *)
Definition promptSchema_parse (body : json) : list ZodIssue + jsstring :=
  match body with
  | JObject fields =>
      match get_field (lit "prompt") fields with
      | Some (JString s) => inr s
      | Some _ => inl [mkIssue [lit "prompt"] (lit "Expected string")]
      | None => inl [mkIssue [lit "prompt"] (lit "Required")]
      end
  | _ => inl [mkIssue [] (lit "Expected object")]
  end.

(** ** The routes *)

Section Routes.

(** The schema the routes are registered with. *)
Variable schema_parse : json -> list ZodIssue + jsstring.

Definition parse (body : json) : M jsstring :=
  match schema_parse body with
  | inr p => ret p
  | inl issues => throw (ZodError issues)
  end.

Local Open Scope handler_scope.

(** [app.post("/api/generate", ...)].  The [console.error] of the catch
    block writes to the process log only and is left out. *)
Definition post_generate (env : Env) (req_body : json) : World -> Response * World :=
  try_catch
    (prompt <- parse req_body ;;
     if negb (truthy prompt) || (String_length (trim prompt) =? 0)%N then
       ret (res_status_json 400
              (ErrorBody (lit "Prompt is required and cannot be empty") None))
     else if (2000 <? String_length prompt)%N then
       ret (res_status_json 400
              (ErrorBody (lit "Prompt exceeds maximum length of 2000 characters") None))
     else
       response <- generateText env prompt ;;
       message <- Storage.createMessage env
                    (mkInsert (trim prompt) (trim response)) ;;
       ret (res_json
              (GenerateBody (id message) (Schema.prompt message)
                 (Schema.response message) (createdAt message)
                 (floor_div4 (String_length response)))))
    (fun error =>
       match error with
       | ZodError errors =>
           res_status_json 400
             (ErrorBody (lit "Invalid request format") (Some errors))
       | Error message =>
           res_status_json 500
             (ErrorBody (or_else message (lit "Failed to generate AI response")) None)
       end).

(** [app.get("/api/messages", ...)], with the same omission. *)
Definition get_messages : World -> Response * World :=
  try_catch
    (messages <- Storage.getMessages ;;
     ret (res_json (MessagesBody messages)))
    (fun error =>
       res_status_json 500 (ErrorBody (lit "Failed to retrieve messages") None)).

(** A request to one of the two public endpoints. *)
Inductive Request : Type :=
| POST_generate (req_body : json)
| GET_messages.

Definition serve (env : Env) (r : Request) : World -> Response * World :=
  match r with
  | POST_generate req_body => post_generate env req_body
  | GET_messages => get_messages
  end.

(** The server handling a sequence of requests, one after the other, each
    in the environment it meets. *)
Fixpoint run (w : World) (rs : list (Env * Request)) : list Response * World :=
  match rs with
  | [] => ([], w)
  | (env, r) :: rest =>
      let (resp, w1) := serve env r w in
      let (resps, w2) := run w1 rest in
      (resp :: resps, w2)
  end.

End Routes.

(** The store at process start. *)
Definition initial : World := mkWorld [] [].

(** A prompt the handler accepts: not empty after trimming and at most
    2000 code units long. *)
Definition valid_prompt (p : jsstring) : Prop :=
  trim p <> [] /\ (String_length p <= 2000)%N.

(** The messages announced by the successful generate responses of a run. *)
Definition announced (resp : Response) : list Message :=
  match resp with
  | mkResponse 200 (GenerateBody i p r c _) => [mkMessage i p r c]
  | _ => []
  end.

(** ** Runs and logs *)

(** The store entry of a message, and the pair a message was created from. *)
Definition entry (m : Message) : ID * Message := (id m, m).
Definition inserted (m : Message) : InsertMessage :=
  mkInsert (Schema.prompt m) (Schema.response m).

(** The [createMessage] calls of a log, in order. *)
Definition creations (log : list Call) : list InsertMessage :=
  flat_map (fun c => match c with CallCreateMessage m => [m] | _ => [] end) log.

(** ** Concrete requests and environments *)

(** The body [{"prompt": p}]. *)
Definition prompt_body (p : jsstring) : json := JObject [(lit "prompt", JString p)].

(** An environment whose generator returns [text], and one whose generator
    throws an error carrying [message]. *)
Definition answering (text : jsstring) : Env := mkEnv (fun _ => inr text) 1700000000000%N.
Definition failing (message : jsstring) : Env := mkEnv (fun _ => inl message) 1700000000000%N.

(** One character followed by 2000 spaces: 2001 code units as received,
    one after trimming. *)
Definition padded_prompt : jsstring := lit "a" ++ repeat 0x20%N 2000.

(** Whether the handler consulted the generator while producing a
    response: a 500 answer or a generate body. *)
Definition consulted (resp : Response) : bool :=
  (status resp =? 500)%N
  || match body resp with GenerateBody _ _ _ _ _ => true | _ => false end.

(** The [generateText] calls of a log. *)
Definition generations (log : list Call) : list jsstring :=
  flat_map (fun c => match c with CallGenerateText p => [p] | _ => [] end) log.

(** What the data model asks of a stored prompt/response pair: the prompt
    trimmed, not empty and at most 2000 code units, the response trimmed. *)
Definition well_formed_pair (p r : jsstring) : Prop :=
  p <> [] /\ (String_length p <= 2000)%N /\ trim p = p /\ trim r = r.

(** ** The chat page (client) *)

Module Chat.

(** The two pieces of component state the handlers read. *)
Record State := mkState {
  prompt : jsstring;
  isGenerating : bool
}.

(** What a handler asks of the mutation: [generateMutation.mutate(p)], or
    nothing. *)
Definition Sent := option jsstring.

(** [handleSubmit] *)
Definition handleSubmit (st : State) : State * Sent :=
  let trimmedPrompt := trim (prompt st) in
  if negb (truthy trimmedPrompt) || (2000 <? String_length trimmedPrompt)%N then
    (st, None)
  else
    (mkState (prompt st) true, Some trimmedPrompt).

(** [handleKeyDown], for a key event with its [key] and [shiftKey]. *)
Definition handleKeyDown (key : jsstring) (shiftKey : bool) (st : State)
  : State * Sent :=
  if jsstring_eqb key (lit "Enter") && negb shiftKey then
    if truthy (trim (prompt st))
       && (String_length (prompt st) <=? 2000)%N
       && negb (isGenerating st)
    then handleSubmit st
    else (st, None)
  else (st, None).

(** [isSubmitDisabled], the [disabled] attribute of the send button. *)
Definition isSubmitDisabled (st : State) : bool :=
  negb (truthy (trim (prompt st)))
  || (2000 <? String_length (prompt st))%N
  || isGenerating st.

(** The "Try again" button: [generateMutation.mutate(prompt.trim())]. *)
Definition retry (st : State) : State * Sent := (st, Some (trim (prompt st))).

(** The request the mutation issues for [mutate(p)]:
    [apiRequest("POST", "/api/generate", { prompt })]. *)
Definition mutation_request (p : jsstring) : json :=
  JObject [(lit "prompt", JString p)].

(** The token count shown under a message:
    [Math.floor(message.response.length / 4)]. *)
Definition displayed_tokens (m : Message) : N :=
  floor_div4 (String_length (Schema.response m)).

End Chat.

(** ** The request logger (server entry point) *)

Module Logger.







End Logger.

(** ** Facts about strings *)

Local Open Scope N_scope.

Lemma String_length_zero (s : jsstring) : String_length s = 0 <-> s = [].
Proof.
  unfold String_length. destruct s as [|c t]; simpl; split; intro H;
    try reflexivity; try discriminate; lia.
Qed.

Lemma trim_nil : trim [] = [].
Proof. reflexivity. Qed.

(** The handler's first test, [!prompt || prompt.trim().length === 0],
    holds exactly when the prompt is empty after trimming. *)
Lemma empty_test_true (p : jsstring) :
  trim p = [] -> negb (truthy p) || (String_length (trim p) =? 0) = true.
Proof.
  intro H. rewrite H. apply orb_true_r.
Qed.

Lemma empty_test_false (p : jsstring) :
  trim p <> [] -> negb (truthy p) || (String_length (trim p) =? 0) = false.
Proof.
  intro H. apply orb_false_iff. split.
  - destruct p; [exfalso; apply H, trim_nil | reflexivity].
  - apply N.eqb_neq. intro E. apply H, String_length_zero, E.
Qed.

Lemma trimStart_length (s : jsstring) :
  (List.length (trimStart s) <= List.length s)%nat.
Proof.
  induction s as [|c t IH]; simpl; [lia|].
  destruct (isWhiteSpace c); simpl; lia.
Qed.

Lemma trim_length (s : jsstring) : String_length (trim s) <= String_length s.
Proof.
  unfold String_length, trim, trimEnd. rewrite length_rev.
  pose proof (trimStart_length (rev (trimStart s))) as H1.
  rewrite length_rev in H1.
  pose proof (trimStart_length s) as H2. lia.
Qed.

(** Trimming a string that changes under [trim] makes it shorter. *)
Lemma trim_shorter (s : jsstring) :
  trim s <> s -> String_length (trim s) < String_length s.
Proof.
  intro H. pose proof (trim_length s) as Hle.
  destruct (N.eq_dec (String_length (trim s)) (String_length s)) as [E|]; [|lia].
  exfalso. apply H. clear H Hle.
  unfold String_length in E. apply Nat2N.inj in E.
  unfold trim, trimEnd in *. rewrite length_rev in E.
  assert (Hs : forall u, List.length (trimStart u) = List.length u -> trimStart u = u).
  { intros u. destruct u as [|c t]; simpl; [reflexivity|].
    destruct (isWhiteSpace c); [|reflexivity].
    intro L. pose proof (trimStart_length t). lia. }
  pose proof (trimStart_length (rev (trimStart s))) as H1.
  rewrite length_rev in H1.
  pose proof (trimStart_length s) as H2.
  assert (E1 : trimStart s = s) by (apply Hs; lia).
  rewrite E1 in *.
  rewrite Hs by (rewrite length_rev; exact E).
  apply rev_involutive.
Qed.

(** ** Facts about the store *)

Lemma fold_max_bound (l : list N) (k : N) : In k l -> k <= fold_right N.max 0 l.
Proof.
  induction l as [|x t IH]; simpl; [tauto|].
  intros [E | Hin]; [subst; lia | specialize (IH Hin); lia].
Qed.

(** "a fresh unique id": the identifier [createMessage] assigns is not
    the key of any stored message. *)
Lemma fresh_id_fresh (m : MessageMap) : ~ In (Storage.fresh_id m) (Storage.keys m).
Proof.
  unfold Storage.fresh_id. intro Hin. apply fold_max_bound in Hin. lia.
Qed.

(** Setting an absent key adds the entry at the end. *)
Lemma set_absent (k : ID) (v : Message) (m : MessageMap) :
  ~ In k (Storage.keys m) -> Storage.set k v m = m ++ [(k, v)].
Proof.
  induction m as [|[k' v'] rest IH]; simpl; intro Hn; [reflexivity|].
  destruct (N.eqb_spec k k') as [E | NE].
  - exfalso. apply Hn. left. symmetry. exact E.
  - rewrite IH; [reflexivity | intro Hin; apply Hn; right; exact Hin].
Qed.

Lemma set_fresh (v : Message) (m : MessageMap) :
  Storage.set (Storage.fresh_id m) v m = m ++ [(Storage.fresh_id m, v)].
Proof. apply set_absent, fresh_id_fresh. Qed.

(** ** The paths through [POST /api/generate] *)

Section Paths.

Variable schema_parse : json -> list ZodIssue + jsstring.
Variable env : Env.
Variable req_body : json.
Variable w : World.

(** [promptSchema.parse] throws: the [ZodError] branch of the catch. *)
Lemma path_zod_error (issues : list ZodIssue) :
  schema_parse req_body = inl issues ->
  post_generate schema_parse env req_body w =
    (res_status_json 400 (ErrorBody (lit "Invalid request format") (Some issues)), w).
Proof.
  intro Hp. unfold post_generate, try_catch, bind, parse. rewrite Hp.
  reflexivity.
Qed.

(** The first early return. *)
Lemma path_empty (p : jsstring) :
  schema_parse req_body = inr p -> trim p = [] ->
  post_generate schema_parse env req_body w =
    (res_status_json 400
       (ErrorBody (lit "Prompt is required and cannot be empty") None), w).
Proof.
  intros Hp He. unfold post_generate, try_catch, bind, parse. rewrite Hp.
  unfold ret at 1. cbv beta iota. rewrite (empty_test_true p He). reflexivity.
Qed.

(** The second early return. *)
Lemma path_too_long (p : jsstring) :
  schema_parse req_body = inr p -> trim p <> [] -> 2000 < String_length p ->
  post_generate schema_parse env req_body w =
    (res_status_json 400
       (ErrorBody (lit "Prompt exceeds maximum length of 2000 characters") None), w).
Proof.
  intros Hp He Hl. unfold post_generate, try_catch, bind, parse. rewrite Hp.
  unfold ret at 1. cbv beta iota. rewrite (empty_test_false p He).
  apply N.ltb_lt in Hl. rewrite Hl. reflexivity.
Qed.

Lemma valid_prompt_tests (p : jsstring) :
  valid_prompt p ->
  negb (truthy p) || (String_length (trim p) =? 0) = false
  /\ (2000 <? String_length p) = false.
Proof.
  intros [He Hl]. split; [apply empty_test_false, He | apply N.ltb_ge, Hl].
Qed.

(** [generateText] throws: the generic branch of the catch. *)
Lemma path_generation_failed (p message : jsstring) :
  schema_parse req_body = inr p -> valid_prompt p ->
  generate_outcome env p = inl message ->
  post_generate schema_parse env req_body w =
    (res_status_json 500
       (ErrorBody (or_else message (lit "Failed to generate AI response")) None),
     log_call (CallGenerateText p) w).
Proof.
  intros Hp Hv Hg. destruct (valid_prompt_tests p Hv) as [T1 T2].
  unfold post_generate, try_catch, bind, parse. rewrite Hp.
  unfold ret at 1. cbv beta iota. rewrite T1, T2.
  unfold generateText. rewrite Hg. reflexivity.
Qed.

(** The whole try block runs. *)
Lemma path_success (p text : jsstring) :
  schema_parse req_body = inr p -> valid_prompt p ->
  generate_outcome env p = inr text ->
  let message :=
    mkMessage (Storage.fresh_id (storage w)) (trim p) (trim text) (now env) in
  post_generate schema_parse env req_body w =
    (res_json
       (GenerateBody (id message) (trim p) (trim text) (now env)
          (floor_div4 (String_length text))),
     mkWorld (storage w ++ [(id message, message)])
       (calls w ++ [CallGenerateText p;
                    CallCreateMessage (mkInsert (trim p) (trim text))])).
Proof.
  intros Hp Hv Hg message. destruct (valid_prompt_tests p Hv) as [T1 T2].
  unfold post_generate, try_catch, bind, parse. rewrite Hp.
  unfold ret at 1. cbv beta iota. rewrite T1, T2.
  unfold generateText. rewrite Hg. cbv beta iota.
  unfold Storage.createMessage, log_call, ret. simpl.
  rewrite set_fresh, <- app_assoc. reflexivity.
Qed.

End Paths.

Lemma prompt_body_parses (p : jsstring) : promptSchema_parse (prompt_body p) = inr p.
Proof. reflexivity. Qed.

Ltac valid_prompt_by_computation :=
  split; [vm_compute; discriminate | vm_compute; discriminate].

(** ** The generate handler and its collaborator *)

(** C1, as stated, fails: for the valid prompt [" hi"] the generator is
    called with [" hi"], and no call with the trimmed prompt ["hi"] is made. *)
Lemma collaborator_gets_trimmed_prompt_fails :
  valid_prompt (lit " hi")
  /\ promptSchema_parse (prompt_body (lit " hi")) = inr (lit " hi")
  /\ calls (snd (post_generate promptSchema_parse (answering (lit "ok"))
                  (prompt_body (lit " hi")) initial))
     = [CallGenerateText (lit " hi");
        CallCreateMessage (mkInsert (lit "hi") (lit "ok"))]
  /\ ~ In (CallGenerateText (trim (lit " hi")))
         (calls (snd (post_generate promptSchema_parse (answering (lit "ok"))
                        (prompt_body (lit " hi")) initial))).
Proof.
  split; [valid_prompt_by_computation|].
  split; [reflexivity|]. split; [reflexivity|].
  vm_compute. intros [H | [H | []]]; discriminate H.
Qed.

(** C1 (amended): for every valid prompt the generate handler calls the
    external generator exactly once, and with the prompt as it was
    received, not trimmed; trimming is applied only to what is stored. *)
Theorem collaborator_gets_received_prompt
    (schema_parse : json -> list ZodIssue + jsstring)
    (env : Env) (req_body : json) (w : World) (p : jsstring) :
  schema_parse req_body = inr p ->
  valid_prompt p ->
  exists rest,
    calls (snd (post_generate schema_parse env req_body w))
      = calls w ++ CallGenerateText p :: rest
    /\ forall q, ~ In (CallGenerateText q) rest.
Proof.
  intros Hp Hv. destruct (generate_outcome env p) as [message | text] eqn:Hg.
  - rewrite (path_generation_failed schema_parse env req_body w p message Hp Hv Hg).
    exists []. split; [reflexivity | intros q []].
  - rewrite (path_success schema_parse env req_body w p text Hp Hv Hg).
    exists [CallCreateMessage (mkInsert (trim p) (trim text))].
    split; [reflexivity|]. intros q [H | []]. discriminate H.
Qed.

Lemma collaborator_gets_received_prompt_witness :
  exists rest,
    calls (snd (post_generate promptSchema_parse (answering (lit "ok"))
                  (prompt_body (lit " hi")) initial))
      = calls initial ++ CallGenerateText (lit " hi") :: rest
    /\ forall q, ~ In (CallGenerateText q) rest.
Proof.
  apply (collaborator_gets_received_prompt promptSchema_parse (answering (lit "ok"))
           (prompt_body (lit " hi")) initial (lit " hi")).
  - reflexivity.
  - valid_prompt_by_computation.
Defined.

(** ** Validation *)

(** C2: a request whose prompt is empty after trimming or longer than 2000
    characters is answered with status 400; the store is left as it was and
    no collaborator is called (in particular [createMessage] is not). *)
Theorem invalid_prompt_rejected
    (schema_parse : json -> list ZodIssue + jsstring)
    (env : Env) (req_body : json) (w : World) (p : jsstring) :
  schema_parse req_body = inr p ->
  trim p = [] \/ 2000 < String_length p ->
  status (fst (post_generate schema_parse env req_body w)) = 400
  /\ storage (snd (post_generate schema_parse env req_body w)) = storage w
  /\ calls (snd (post_generate schema_parse env req_body w)) = calls w.
Proof.
  intros Hp Hbad.
  destruct (list_eq_dec N.eq_dec (trim p) []) as [He | Hne].
  - rewrite (path_empty schema_parse env req_body w p Hp He). repeat split.
  - destruct Hbad as [He | Hl]; [contradiction|].
    rewrite (path_too_long schema_parse env req_body w p Hp Hne Hl). repeat split.
Qed.

Lemma invalid_prompt_rejected_witness :
  status (fst (post_generate promptSchema_parse (answering (lit "ok"))
                 (prompt_body (lit "   ")) initial)) = 400
  /\ storage (snd (post_generate promptSchema_parse (answering (lit "ok"))
                     (prompt_body (lit "   ")) initial)) = storage initial
  /\ calls (snd (post_generate promptSchema_parse (answering (lit "ok"))
                   (prompt_body (lit "   ")) initial)) = calls initial.
Proof.
  apply (invalid_prompt_rejected promptSchema_parse (answering (lit "ok"))
           (prompt_body (lit "   ")) initial (lit "   ")).
  - reflexivity.
  - left. reflexivity.
Defined.

(** C9: the length test reads the prompt as received.  Whenever the raw
    prompt is longer than 2000 characters the answer is 400 and nothing else
    happens, whatever the length of the trimmed prompt. *)
Theorem length_test_reads_raw_prompt
    (schema_parse : json -> list ZodIssue + jsstring)
    (env : Env) (req_body : json) (w : World) (p : jsstring) :
  schema_parse req_body = inr p ->
  2000 < String_length p ->
  status (fst (post_generate schema_parse env req_body w)) = 400
  /\ snd (post_generate schema_parse env req_body w) = w.
Proof.
  intros Hp Hl.
  destruct (list_eq_dec N.eq_dec (trim p) []) as [He | Hne].
  - rewrite (path_empty schema_parse env req_body w p Hp He). split; reflexivity.
  - rewrite (path_too_long schema_parse env req_body w p Hp Hne Hl). split; reflexivity.
Qed.

Lemma length_test_reads_raw_prompt_witness :
  String_length (trim padded_prompt) <= 2000
  /\ trim padded_prompt <> []
  /\ post_generate promptSchema_parse (answering (lit "ok"))
       (prompt_body padded_prompt) initial
     = (res_status_json 400
          (ErrorBody (lit "Prompt exceeds maximum length of 2000 characters") None),
        initial)
  /\ status (fst (post_generate promptSchema_parse (answering (lit "ok"))
                    (prompt_body padded_prompt) initial)) = 400
  /\ snd (post_generate promptSchema_parse (answering (lit "ok"))
            (prompt_body padded_prompt) initial) = initial.
Proof.
  split; [vm_compute; discriminate|].
  split; [vm_compute; discriminate|].
  split; [vm_compute; reflexivity|].
  apply (length_test_reads_raw_prompt promptSchema_parse (answering (lit "ok"))
           (prompt_body padded_prompt) initial padded_prompt).
  - reflexivity.
  - vm_compute. reflexivity.
Defined.

(** C8: a body the prompt schema rejects is answered with status 400 and the
    JSON error body [{error: "Invalid request format", details}]; the world
    is untouched, so neither the generator nor the store is called. *)
Theorem malformed_body_rejected
    (schema_parse : json -> list ZodIssue + jsstring)
    (env : Env) (req_body : json) (w : World) (issues : list ZodIssue) :
  schema_parse req_body = inl issues ->
  post_generate schema_parse env req_body w
  = (mkResponse 400 (ErrorBody (lit "Invalid request format") (Some issues)), w).
Proof.
  intro Hp. apply path_zod_error, Hp.
Qed.

(** A body without [prompt], and one whose [prompt] is a number. *)
Lemma malformed_body_rejected_witness :
  post_generate promptSchema_parse (answering (lit "ok")) (JObject []) initial
  = (mkResponse 400
       (ErrorBody (lit "Invalid request format")
          (Some [mkIssue [lit "prompt"] (lit "Required")])), initial)
  /\ post_generate promptSchema_parse (answering (lit "ok"))
       (JObject [(lit "prompt", JNumber 7)]) initial
  = (mkResponse 400
       (ErrorBody (lit "Invalid request format")
          (Some [mkIssue [lit "prompt"] (lit "Expected string")])), initial).
Proof.
  split.
  - apply (malformed_body_rejected promptSchema_parse (answering (lit "ok"))
             (JObject []) initial). reflexivity.
  - apply (malformed_body_rejected promptSchema_parse (answering (lit "ok"))
             (JObject [(lit "prompt", JNumber 7)]) initial). reflexivity.
Defined.

(** ** Generator failure *)

(** C3, as stated, fails: when the generator throws an error whose message
    is empty, the 500 body carries the handler's own fallback text and not
    the generator's message. *)
Lemma failure_carries_collaborator_message_fails :
  valid_prompt (lit "hi")
  /\ generate_outcome (failing []) (lit "hi") = inl []
  /\ fst (post_generate promptSchema_parse (failing []) (prompt_body (lit "hi")) initial)
     = mkResponse 500 (ErrorBody (lit "Failed to generate AI response") None)
  /\ forall details,
       body (fst (post_generate promptSchema_parse (failing [])
                    (prompt_body (lit "hi")) initial))
       <> ErrorBody [] details.
Proof.
  split; [valid_prompt_by_computation|].
  split; [reflexivity|]. split; [reflexivity|].
  intros details. vm_compute. discriminate.
Qed.

(** C3 (amended): for every valid prompt, if the generator throws, the
    answer has status 500; its body carries the generator's message when
    that message is not empty, and the text "Failed to generate AI response"
    when it is; the store is left as it was, and the only call made is the
    one to the generator. *)
Theorem generation_failure_is_500
    (schema_parse : json -> list ZodIssue + jsstring)
    (env : Env) (req_body : json) (w : World) (p message : jsstring) :
  schema_parse req_body = inr p ->
  valid_prompt p ->
  generate_outcome env p = inl message ->
  status (fst (post_generate schema_parse env req_body w)) = 500
  /\ (message <> [] ->
      body (fst (post_generate schema_parse env req_body w))
      = ErrorBody message None)
  /\ (message = [] ->
      body (fst (post_generate schema_parse env req_body w))
      = ErrorBody (lit "Failed to generate AI response") None)
  /\ storage (snd (post_generate schema_parse env req_body w)) = storage w
  /\ calls (snd (post_generate schema_parse env req_body w))
     = calls w ++ [CallGenerateText p].
Proof.
  intros Hp Hv Hg.
  rewrite (path_generation_failed schema_parse env req_body w p message Hp Hv Hg).
  simpl. split; [reflexivity|]. split; [|split; [|split; reflexivity]].
  - intro Hne. destruct message; [contradiction | reflexivity].
  - intro He. rewrite He. reflexivity.
Qed.

Lemma generation_failure_is_500_witness :
  status (fst (post_generate promptSchema_parse (failing (lit "quota exceeded"))
                 (prompt_body (lit " hi ")) initial)) = 500
  /\ body (fst (post_generate promptSchema_parse (failing (lit "quota exceeded"))
                  (prompt_body (lit " hi ")) initial))
     = ErrorBody (lit "quota exceeded") None
  /\ storage (snd (post_generate promptSchema_parse (failing (lit "quota exceeded"))
                     (prompt_body (lit " hi ")) initial)) = []
  /\ calls (snd (post_generate promptSchema_parse (failing (lit "quota exceeded"))
                   (prompt_body (lit " hi ")) initial))
     = [CallGenerateText (lit " hi ")].
Proof.
  destruct (generation_failure_is_500 promptSchema_parse
              (failing (lit "quota exceeded")) (prompt_body (lit " hi ")) initial
              (lit " hi ") (lit "quota exceeded"))
    as (H1 & H2 & _ & H4 & H5).
  - reflexivity.
  - valid_prompt_by_computation.
  - reflexivity.
  - split; [exact H1|]. split; [apply H2; vm_compute; discriminate|].
    split; [exact H4 | exact H5].
Defined.

(** ** Successful generation *)

(** C4, as stated, fails: when the generator returns ["abc "] the body
    carries the response ["abc"] (3 code units, so 0 by the formula) and
    [tokens] is 1. *)
Lemma tokens_equal_quarter_of_returned_response_fails :
  valid_prompt (lit "hi")
  /\ fst (post_generate promptSchema_parse (answering (lit "abc "))
            (prompt_body (lit "hi")) initial)
     = mkResponse 200
         (GenerateBody 1 (lit "hi") (lit "abc") (now (answering (lit "abc "))) 1)
  /\ floor_div4 (String_length (lit "abc")) = 0
  /\ 1 <> floor_div4 (String_length (lit "abc")).
Proof.
  split; [valid_prompt_by_computation|].
  split; [reflexivity|]. split; [reflexivity|].
  vm_compute. discriminate.
Qed.

(** C4 (amended): for every successful generation, the [tokens] field of the
    200 response equals floor(length / 4) of the generator's output as it was
    returned, before trimming; it equals floor(length / 4) of the [response]
    field of the body whenever trimming leaves the output unchanged. *)
Theorem tokens_equal_quarter_of_generated_text
    (schema_parse : json -> list ZodIssue + jsstring)
    (env : Env) (req_body : json) (w : World) (p text : jsstring) :
  schema_parse req_body = inr p ->
  valid_prompt p ->
  generate_outcome env p = inr text ->
  exists i q r c tokens,
    fst (post_generate schema_parse env req_body w)
    = mkResponse 200 (GenerateBody i q r c tokens)
    /\ tokens = floor_div4 (String_length text)
    /\ (trim text = text -> tokens = floor_div4 (String_length r)).
Proof.
  intros Hp Hv Hg.
  rewrite (path_success schema_parse env req_body w p text Hp Hv Hg).
  simpl. eexists _, _, _, _, _. split; [reflexivity|].
  split; [reflexivity|]. intro Ht. rewrite Ht. reflexivity.
Qed.

Lemma tokens_equal_quarter_of_generated_text_witness :
  exists i q r c tokens,
    fst (post_generate promptSchema_parse (answering (lit "abc "))
           (prompt_body (lit "hi")) initial)
    = mkResponse 200 (GenerateBody i q r c tokens)
    /\ tokens = floor_div4 (String_length (lit "abc "))
    /\ (trim (lit "abc ") = lit "abc " -> tokens = floor_div4 (String_length r)).
Proof.
  apply (tokens_equal_quarter_of_generated_text promptSchema_parse
           (answering (lit "abc ")) (prompt_body (lit "hi")) initial (lit "hi")).
  - reflexivity.
  - valid_prompt_by_computation.
  - reflexivity.
Defined.

(** C10: when the generator's output has leading or trailing whitespace,
    the [response] field of the 200 body is the trimmed output, which is
    strictly shorter, while [tokens] is floor(length / 4) of the untrimmed
    output; and there are outputs (["abc "] is one) for which [tokens]
    differs from floor(length / 4) of the returned [response] field. *)
Theorem tokens_count_untrimmed_output
    (schema_parse : json -> list ZodIssue + jsstring)
    (env : Env) (req_body : json) (w : World) (p text : jsstring) :
  schema_parse req_body = inr p ->
  valid_prompt p ->
  generate_outcome env p = inr text ->
  trim text <> text ->
  (exists i c,
     fst (post_generate schema_parse env req_body w)
     = mkResponse 200
         (GenerateBody i (trim p) (trim text) c (floor_div4 (String_length text)))
     /\ String_length (trim text) < String_length text)
  /\ (exists i q r c tokens,
        fst (post_generate promptSchema_parse (answering (lit "abc "))
               (prompt_body (lit "hi")) initial)
        = mkResponse 200 (GenerateBody i q r c tokens)
        /\ tokens <> floor_div4 (String_length r)).
Proof.
  intros Hp Hv Hg Hws. split.
  - rewrite (path_success schema_parse env req_body w p text Hp Hv Hg).
    simpl. eexists _, _. split; [reflexivity | apply trim_shorter, Hws].
  - eexists _, _, _, _, _. split; [vm_compute; reflexivity|].
    vm_compute. discriminate.
Qed.

Lemma tokens_count_untrimmed_output_witness :
  exists i c,
    fst (post_generate promptSchema_parse (answering (lit " one two "))
           (prompt_body (lit "count")) initial)
    = mkResponse 200
        (GenerateBody i (trim (lit "count")) (trim (lit " one two ")) c
           (floor_div4 (String_length (lit " one two "))))
    /\ String_length (trim (lit " one two ")) < String_length (lit " one two ").
Proof.
  apply (tokens_count_untrimmed_output promptSchema_parse
           (answering (lit " one two ")) (prompt_body (lit "count")) initial
           (lit "count") (lit " one two ")).
  - reflexivity.
  - valid_prompt_by_computation.
  - reflexivity.
  - vm_compute. discriminate.
Defined.

(** C5: for every valid prompt on which the generator succeeds, exactly one
    message is added to the store, at the end and under an identifier no
    stored message had; its prompt is the trimmed input prompt and its
    response the trimmed generator output; [createMessage] is called once,
    with that pair; and the 200 body carries that message's id, prompt,
    response and createdAt. *)
Theorem successful_generation_appends_one_message
    (schema_parse : json -> list ZodIssue + jsstring)
    (env : Env) (req_body : json) (w : World) (p text : jsstring) :
  schema_parse req_body = inr p ->
  valid_prompt p ->
  generate_outcome env p = inr text ->
  exists m tokens,
    storage (snd (post_generate schema_parse env req_body w))
    = storage w ++ [(id m, m)]
    /\ Storage.values (storage (snd (post_generate schema_parse env req_body w)))
       = Storage.values (storage w) ++ [m]
    /\ ~ In (id m) (Storage.keys (storage w))
    /\ Schema.prompt m = trim p
    /\ Schema.response m = trim text
    /\ calls (snd (post_generate schema_parse env req_body w))
       = calls w ++ [CallGenerateText p;
                     CallCreateMessage (mkInsert (trim p) (trim text))]
    /\ fst (post_generate schema_parse env req_body w)
       = mkResponse 200
           (GenerateBody (id m) (Schema.prompt m) (Schema.response m)
              (createdAt m) tokens).
Proof.
  intros Hp Hv Hg.
  rewrite (path_success schema_parse env req_body w p text Hp Hv Hg).
  exists (mkMessage (Storage.fresh_id (storage w)) (trim p) (trim text) (now env)).
  exists (floor_div4 (String_length text)).
  simpl. repeat split.
  - unfold Storage.values. rewrite map_app. reflexivity.
  - apply fresh_id_fresh.
Qed.

Lemma successful_generation_appends_one_message_witness :
  exists m tokens,
    storage (snd (post_generate promptSchema_parse (answering (lit " ok "))
                    (prompt_body (lit " hi ")) initial))
    = storage initial ++ [(id m, m)]
    /\ Storage.values
         (storage (snd (post_generate promptSchema_parse (answering (lit " ok "))
                          (prompt_body (lit " hi ")) initial)))
       = Storage.values (storage initial) ++ [m]
    /\ ~ In (id m) (Storage.keys (storage initial))
    /\ Schema.prompt m = trim (lit " hi ")
    /\ Schema.response m = trim (lit " ok ")
    /\ calls (snd (post_generate promptSchema_parse (answering (lit " ok "))
                     (prompt_body (lit " hi ")) initial))
       = calls initial
         ++ [CallGenerateText (lit " hi ");
             CallCreateMessage (mkInsert (trim (lit " hi ")) (trim (lit " ok ")))]
    /\ fst (post_generate promptSchema_parse (answering (lit " ok "))
              (prompt_body (lit " hi ")) initial)
       = mkResponse 200
           (GenerateBody (id m) (Schema.prompt m) (Schema.response m)
              (createdAt m) tokens).
Proof.
  apply (successful_generation_appends_one_message promptSchema_parse
           (answering (lit " ok ")) (prompt_body (lit " hi ")) initial (lit " hi ")).
  - reflexivity.
  - valid_prompt_by_computation.
  - reflexivity.
Defined.

(** ** Sequences of requests *)

Lemma values_entries (l : list Message) : Storage.values (List.map entry l) = l.
Proof.
  unfold Storage.values. rewrite map_map. simpl. apply map_id.
Qed.

Lemma values_app (m1 m2 : MessageMap) :
  Storage.values (m1 ++ m2) = Storage.values m1 ++ Storage.values m2.
Proof. unfold Storage.values. apply map_app. Qed.

Lemma creations_app (l1 l2 : list Call) :
  creations (l1 ++ l2) = creations l1 ++ creations l2.
Proof. unfold creations. apply flat_map_app. Qed.

Section Steps.

Variable schema_parse : json -> list ZodIssue + jsstring.

(** What one request does to the world: the store gains exactly the
    message the response announces (none unless it is a 200 generate
    response), at the end, and the log gains the matching calls. *)
Lemma serve_step (env : Env) (r : Request) (w : World) :
  storage (snd (serve schema_parse env r w))
  = storage w ++ List.map entry (announced (fst (serve schema_parse env r w)))
  /\ creations (calls (snd (serve schema_parse env r w)))
     = creations (calls w)
       ++ List.map inserted (announced (fst (serve schema_parse env r w))).
Proof.
  destruct r as [req_body |]; simpl.
  - destruct (schema_parse req_body) as [issues | p] eqn:Hp.
    + rewrite (path_zod_error schema_parse env req_body w issues Hp).
      simpl. rewrite !app_nil_r. split; reflexivity.
    + destruct (list_eq_dec N.eq_dec (trim p) []) as [He | Hne].
      * rewrite (path_empty schema_parse env req_body w p Hp He).
        simpl. rewrite !app_nil_r. split; reflexivity.
      * destruct (N.ltb_spec 2000 (String_length p)) as [Hl | Hl].
        { rewrite (path_too_long schema_parse env req_body w p Hp Hne Hl).
          simpl. rewrite !app_nil_r. split; reflexivity. }
        assert (Hv : valid_prompt p) by (split; assumption).
        destruct (generate_outcome env p) as [message | text] eqn:Hg.
        { rewrite (path_generation_failed schema_parse env req_body w p message Hp Hv Hg).
          simpl. rewrite creations_app, !app_nil_r. split; reflexivity. }
        rewrite (path_success schema_parse env req_body w p text Hp Hv Hg).
        simpl. rewrite creations_app. split; reflexivity.
  - unfold get_messages, try_catch, bind, Storage.getMessages, ret. simpl.
    rewrite creations_app, !app_nil_r. split; reflexivity.
Qed.

(** The same over a whole run, by induction on the requests. *)
Lemma run_steps (rs : list (Env * Request)) :
  forall w,
    storage (snd (run schema_parse w rs))
    = storage w ++ List.map entry (flat_map announced (fst (run schema_parse w rs)))
    /\ creations (calls (snd (run schema_parse w rs)))
       = creations (calls w)
         ++ List.map inserted (flat_map announced (fst (run schema_parse w rs))).
Proof.
  induction rs as [|[env r] rest IH]; intro w; simpl.
  - rewrite !app_nil_r. split; reflexivity.
  - destruct (serve_step env r w) as [Hs Hc].
    destruct (serve schema_parse env r w) as [resp w1]; simpl in Hs, Hc.
    destruct (IH w1) as [Hs' Hc'].
    destruct (run schema_parse w1 rest) as [resps w2]; simpl in Hs', Hc' |- *.
    rewrite Hs', Hs, Hc', Hc, !map_app, <- !app_assoc. split; reflexivity.
Qed.

(** [GET /api/messages] answers 200 with the values of the store's map. *)
Lemma get_messages_response (w : World) :
  fst (get_messages w) = mkResponse 200 (MessagesBody (Storage.values (storage w))).
Proof. reflexivity. Qed.

End Steps.

(** C6: after any sequence of requests served from process start, and so
    after any sequence of successful generate calls, [GET /api/messages]
    answers 200 with all the messages created, in the order they were
    created: they are the messages the successful generate responses
    announced, in the order of those responses, and the pairs they were
    created from are the [createMessage] calls, in the order of the calls. *)
Theorem messages_listed_in_creation_order
    (schema_parse : json -> list ZodIssue + jsstring)
    (rs : list (Env * Request)) :
  exists messages,
    fst (get_messages (snd (run schema_parse initial rs)))
    = mkResponse 200 (MessagesBody messages)
    /\ messages = flat_map announced (fst (run schema_parse initial rs))
    /\ List.map inserted messages
       = creations (calls (snd (run schema_parse initial rs))).
Proof.
  destruct (run_steps schema_parse rs initial) as [Hs Hc]. simpl in Hs, Hc.
  exists (flat_map announced (fst (run schema_parse initial rs))).
  rewrite get_messages_response, Hs, values_entries, Hc.
  repeat split.
Qed.

(** C7: the store is append-only.  Over any sequence of requests to the two
    endpoints, starting from any store, the store's map only grows at the
    end: what [GET /api/messages] listed before is a prefix of what it
    lists after, so every message listed earlier is listed later,
    unchanged. *)
Theorem store_is_append_only
    (schema_parse : json -> list ZodIssue + jsstring)
    (w : World) (rs : list (Env * Request)) :
  exists earlier added,
    fst (get_messages w) = mkResponse 200 (MessagesBody earlier)
    /\ fst (get_messages (snd (run schema_parse w rs)))
       = mkResponse 200 (MessagesBody (earlier ++ added))
    /\ storage (snd (run schema_parse w rs)) = storage w ++ List.map entry added
    /\ forall m, In m earlier -> In m (earlier ++ added).
Proof.
  destruct (run_steps schema_parse rs w) as [Hs _].
  exists (Storage.values (storage w)).
  exists (flat_map announced (fst (run schema_parse w rs))).
  rewrite !get_messages_response, Hs, values_app, values_entries.
  repeat split. intros m Hin. apply in_or_app. left. exact Hin.
Qed.

(** ** More about [trim] *)

Lemma trimStart_head (s : jsstring) (c : code_unit) (t : jsstring) :
  trimStart s = c :: t -> isWhiteSpace c = false.
Proof.
  induction s as [|a s IH]; simpl; [discriminate|].
  destruct (isWhiteSpace a) eqn:Ea; [exact IH|].
  intro H. injection H as -> _. exact Ea.
Qed.

Lemma trimStart_fixed (s : jsstring) :
  (forall c t, s = c :: t -> isWhiteSpace c = false) -> trimStart s = s.
Proof.
  destruct s as [|a s]; simpl; intro H; [reflexivity|].
  rewrite (H a s eq_refl). reflexivity.
Qed.

Lemma trimStart_idempotent (s : jsstring) : trimStart (trimStart s) = trimStart s.
Proof.
  apply trimStart_fixed. intros c t E. exact (trimStart_head s c t E).
Qed.

Lemma trimStart_suffix (s : jsstring) : exists ws, s = ws ++ trimStart s.
Proof.
  induction s as [|a s [ws IH]]; simpl; [exists []; reflexivity|].
  destruct (isWhiteSpace a).
  - exists (a :: ws). simpl. rewrite <- IH. reflexivity.
  - exists []. reflexivity.
Qed.

Lemma trimEnd_prefix (s : jsstring) : exists ws, s = trimEnd s ++ ws.
Proof.
  unfold trimEnd. destruct (trimStart_suffix (rev s)) as [ws H].
  exists (rev ws). rewrite <- rev_app_distr, <- H. symmetry. apply rev_involutive.
Qed.

(** Trimming twice is trimming once. *)
Lemma trim_idempotent (s : jsstring) : trim (trim s) = trim s.
Proof.
  unfold trim. rewrite (trimStart_fixed (trimEnd (trimStart s))).
  - unfold trimEnd. rewrite rev_involutive, trimStart_idempotent. reflexivity.
  - intros c t E. destruct (trimEnd_prefix (trimStart s)) as [ws H].
    rewrite E in H. simpl in H. exact (trimStart_head s c (t ++ ws) H).
Qed.

(** ** Every path of the generate handler *)

(** The five ways [POST /api/generate] can go, with what each leaves. *)
Lemma post_generate_cases
    (schema_parse : json -> list ZodIssue + jsstring)
    (env : Env) (req_body : json) (w : World) :
  (exists error details,
     post_generate schema_parse env req_body w
     = (mkResponse 400 (ErrorBody error details), w))
  \/ (exists p message,
        valid_prompt p
        /\ post_generate schema_parse env req_body w
           = (mkResponse 500
                (ErrorBody (or_else message (lit "Failed to generate AI response")) None),
              mkWorld (storage w) (calls w ++ [CallGenerateText p])))
  \/ (exists p text,
        valid_prompt p
        /\ post_generate schema_parse env req_body w
           = (mkResponse 200
                (GenerateBody (Storage.fresh_id (storage w)) (trim p) (trim text)
                   (now env) (floor_div4 (String_length text))),
              mkWorld
                (storage w
                 ++ [entry (mkMessage (Storage.fresh_id (storage w)) (trim p)
                              (trim text) (now env))])
                (calls w ++ [CallGenerateText p;
                             CallCreateMessage (mkInsert (trim p) (trim text))]))).
Proof.
  destruct (schema_parse req_body) as [issues | p] eqn:Hp.
  { left. eexists _, _. apply (path_zod_error schema_parse env req_body w issues Hp). }
  destruct (list_eq_dec N.eq_dec (trim p) []) as [He | Hne].
  { left. eexists _, _. apply (path_empty schema_parse env req_body w p Hp He). }
  destruct (N.ltb_spec 2000 (String_length p)) as [Hl | Hl].
  { left. eexists _, _. apply (path_too_long schema_parse env req_body w p Hp Hne Hl). }
  assert (Hv : valid_prompt p) by (split; assumption).
  destruct (generate_outcome env p) as [message | text] eqn:Hg.
  - right. left. exists p, message. split; [exact Hv|].
    apply (path_generation_failed schema_parse env req_body w p message Hp Hv Hg).
  - right. right. exists p, text. split; [exact Hv|].
    apply (path_success schema_parse env req_body w p text Hp Hv Hg).
Qed.

(** X1: the status of a generate response tells what happened to the
    world.  The status is 200, 400 or 500; after a 400 the world is exactly
    as before (no collaborator was called); after a 500 the store is as
    before and the generator was called once; after a 200 the store holds
    exactly one more message, the one the body announces. *)
Theorem generate_status_tells_effect
    (schema_parse : json -> list ZodIssue + jsstring)
    (env : Env) (req_body : json) (w : World) :
  (status (fst (post_generate schema_parse env req_body w)) = 200
   \/ status (fst (post_generate schema_parse env req_body w)) = 400
   \/ status (fst (post_generate schema_parse env req_body w)) = 500)
  /\ (status (fst (post_generate schema_parse env req_body w)) = 400 ->
      snd (post_generate schema_parse env req_body w) = w)
  /\ (status (fst (post_generate schema_parse env req_body w)) = 500 ->
      storage (snd (post_generate schema_parse env req_body w)) = storage w
      /\ exists p,
           calls (snd (post_generate schema_parse env req_body w))
           = calls w ++ [CallGenerateText p])
  /\ (status (fst (post_generate schema_parse env req_body w)) = 200 ->
      exists m,
        announced (fst (post_generate schema_parse env req_body w)) = [m]
        /\ storage (snd (post_generate schema_parse env req_body w))
           = storage w ++ [entry m]
        /\ ~ In (id m) (Storage.keys (storage w))).
Proof.
  destruct (post_generate_cases schema_parse env req_body w)
    as [(error & details & H) | [(p & message & Hv & H) | (p & text & Hv & H)]];
    rewrite H; simpl.
  - split; [right; left; reflexivity|].
    split; [reflexivity|]. split; intro E; discriminate E.
  - split; [right; right; reflexivity|].
    split; [intro E; discriminate E|].
    split; [|intro E; discriminate E].
    intros _. split; [reflexivity | exists p; reflexivity].
  - split; [left; reflexivity|].
    split; [intro E; discriminate E|].
    split; [intro E; discriminate E|].
    intros _. eexists. split; [reflexivity|].
    split; [reflexivity | apply fresh_id_fresh].
Qed.

(** ** Call discipline over a run *)

Lemma generations_app (l1 l2 : list Call) :
  generations (l1 ++ l2) = generations l1 ++ generations l2.
Proof. unfold generations. apply flat_map_app. Qed.

Section Discipline.

Variable schema_parse : json -> list ZodIssue + jsstring.

(** The calls one request adds to the log: at most one to the generator,
    made exactly when the response is a 500 or a generate body, and a
    [createMessage] only after it, for the message the response announces;
    and that message fits the data model. *)
Lemma serve_calls (env : Env) (r : Request) (w : World) :
  exists new,
    calls (snd (serve schema_parse env r w)) = calls w ++ new
    /\ creations new
       = List.map inserted (announced (fst (serve schema_parse env r w)))
    /\ List.length (generations new)
       = List.length (filter consulted [fst (serve schema_parse env r w)])
    /\ (List.length (creations new) <= List.length (generations new) <= 1)%nat
    /\ Forall (fun m => well_formed_pair (Schema.prompt m) (Schema.response m))
         (announced (fst (serve schema_parse env r w))).
Proof.
  destruct r as [req_body |]; simpl serve.
  - destruct (post_generate_cases schema_parse env req_body w)
      as [(error & details & H) | [(p & message & Hv & H) | (p & text & Hv & H)]];
      rewrite H.
    + exists []. simpl. rewrite app_nil_r. repeat split; auto.
    + exists [CallGenerateText p]. simpl. repeat split; auto.
    + exists [CallGenerateText p; CallCreateMessage (mkInsert (trim p) (trim text))].
      simpl. repeat split; auto.
      constructor; [|constructor]. simpl. destruct Hv as [Hne Hl].
      pose proof (trim_length p).
      repeat split; [exact Hne | lia | apply trim_idempotent | apply trim_idempotent].
  - exists [CallGetMessages]. simpl. repeat split; auto.
Qed.

Lemma run_calls (rs : list (Env * Request)) :
  forall w,
    exists new,
      calls (snd (run schema_parse w rs)) = calls w ++ new
      /\ List.length (creations new)
         = List.length (flat_map announced (fst (run schema_parse w rs)))
      /\ List.length (generations new)
         = List.length (filter consulted (fst (run schema_parse w rs)))
      /\ (List.length (creations new) <= List.length (generations new)
          <= List.length rs)%nat
      /\ Forall (fun m => well_formed_pair (Schema.prompt m) (Schema.response m))
           (flat_map announced (fst (run schema_parse w rs))).
Proof.
  induction rs as [|[env r] rest IH]; intro w; simpl.
  - exists []. simpl. rewrite app_nil_r. repeat split; auto.
  - destruct (serve_calls env r w) as (n1 & Hc1 & Hm1 & Hg1 & Hb1 & Hf1).
    destruct (serve schema_parse env r w) as [resp w1]. simpl fst in *. simpl snd in *.
    destruct (IH w1) as (n2 & Hc2 & Hm2 & Hg2 & Hb2 & Hf2).
    destruct (run schema_parse w1 rest) as [resps w2]. simpl fst in *. simpl snd in *.
    exists (n1 ++ n2).
    assert (Ef : filter consulted (resp :: resps)
                 = filter consulted [resp] ++ filter consulted resps).
    { simpl. destruct (consulted resp); reflexivity. }
    assert (L1 : List.length (creations n1) = List.length (announced resp)).
    { rewrite Hm1. apply length_map. }
    rewrite Ef. simpl flat_map.
    rewrite creations_app, generations_app, !length_app.
    split; [rewrite Hc2, Hc1, app_assoc; reflexivity|].
    split; [lia|]. split; [lia|].
    split; [cbn [List.length]; lia|].
    apply Forall_app. split; assumption.
Qed.

End Discipline.

(** X2: over any sequence of requests, from any world, the log only grows,
    and among the calls added there are as many [createMessage] calls as
    responses announcing a message and as many generator calls as responses
    that are a 500 or a generate body; so a message is never created without
    a generator call, and the generator is called at most once per request. *)
Theorem run_call_discipline
    (schema_parse : json -> list ZodIssue + jsstring)
    (w : World) (rs : list (Env * Request)) :
  exists new,
    calls (snd (run schema_parse w rs)) = calls w ++ new
    /\ List.length (creations new)
       = List.length (flat_map announced (fst (run schema_parse w rs)))
    /\ List.length (generations new)
       = List.length (filter consulted (fst (run schema_parse w rs)))
    /\ (List.length (creations new) <= List.length (generations new)
        <= List.length rs)%nat.
Proof.
  destruct (run_calls schema_parse rs w) as (new & H1 & H2 & H3 & H4 & _).
  exists new. repeat split; try assumption; lia.
Qed.

(** X3: whatever requests were served since process start, every message in
    the store, and every pair handed to [createMessage], fits the data model:
    the prompt is trimmed, not empty and at most 2000 code units long, and
    the response is trimmed. *)
Theorem stored_messages_well_formed
    (schema_parse : json -> list ZodIssue + jsstring)
    (rs : list (Env * Request)) :
  Forall (fun m => well_formed_pair (Schema.prompt m) (Schema.response m))
    (Storage.values (storage (snd (run schema_parse initial rs))))
  /\ Forall (fun i => well_formed_pair (ins_prompt i) (ins_response i))
       (creations (calls (snd (run schema_parse initial rs)))).
Proof.
  destruct (run_steps schema_parse rs initial) as [Hs Hc]. simpl in Hs, Hc.
  destruct (run_calls schema_parse rs initial) as (_ & _ & _ & _ & _ & Hf).
  rewrite Hs, Hc, values_entries. split; [exact Hf|].
  apply Forall_map. exact Hf.
Qed.

(** ** The chat page against the server *)

Lemma handleSubmit_sends (st st' : Chat.State) (q : jsstring) :
  Chat.handleSubmit st = (st', Some q) ->
  q = trim (Chat.prompt st) /\ st' = Chat.mkState (Chat.prompt st) true
  /\ q <> [] /\ String_length q <= 2000.
Proof.
  unfold Chat.handleSubmit.
  destruct (truthy (trim (Chat.prompt st))) eqn:Et; simpl; [|discriminate].
  destruct (N.ltb_spec 2000 (String_length (trim (Chat.prompt st)))) as [Hl | Hl];
    [discriminate|].
  intro H. injection H as <- <-.
  repeat split; [|exact Hl].
  intro E. rewrite E in Et. discriminate Et.
Qed.

(** X4: what [handleSubmit] sends is never turned away by the server's
    validation.  The prompt it sends is the trimmed text of the input box,
    it is a valid prompt that trimming leaves unchanged, so the answer is
    not a 400, the generator is called with exactly the trimmed text, and
    a message created from it stores the prompt as sent. *)
Theorem submitted_prompt_is_accepted
    (schema_parse : json -> list ZodIssue + jsstring)
    (env : Env) (w : World) (st st' : Chat.State) (q : jsstring) :
  Chat.handleSubmit st = (st', Some q) ->
  schema_parse (Chat.mutation_request q) = inr q ->
  q = trim (Chat.prompt st)
  /\ valid_prompt q
  /\ trim q = q
  /\ status (fst (post_generate schema_parse env (Chat.mutation_request q) w)) <> 400
  /\ (exists rest,
        calls (snd (post_generate schema_parse env (Chat.mutation_request q) w))
        = calls w ++ CallGenerateText (trim (Chat.prompt st)) :: rest)
  /\ (forall m,
        announced (fst (post_generate schema_parse env (Chat.mutation_request q) w))
        = [m] ->
        Schema.prompt m = q).
Proof.
  intros Hs Hp. destruct (handleSubmit_sends st st' q Hs) as (Eq & _ & Hne & Hl).
  assert (Ht : trim q = q) by (rewrite Eq; apply trim_idempotent).
  assert (Hv : valid_prompt q) by (split; [rewrite Ht; exact Hne | exact Hl]).
  split; [exact Eq|]. split; [exact Hv|]. split; [exact Ht|].
  rewrite <- Eq.
  destruct (generate_outcome env q) as [message | text] eqn:Hg.
  - rewrite (path_generation_failed schema_parse env (Chat.mutation_request q) w
               q message Hp Hv Hg). simpl.
    split; [discriminate|]. split; [exists []; reflexivity|].
    intros m E. discriminate E.
  - rewrite (path_success schema_parse env (Chat.mutation_request q) w
               q text Hp Hv Hg). simpl.
    split; [discriminate|]. split; [eexists; reflexivity|].
    intros m E. injection E as <-. exact Ht.
Qed.

Lemma submitted_prompt_is_accepted_witness :
  lit "hi" = trim (lit "  hi ")
  /\ valid_prompt (lit "hi")
  /\ trim (lit "hi") = lit "hi"
  /\ status (fst (post_generate promptSchema_parse (answering (lit "ok"))
                    (Chat.mutation_request (lit "hi")) initial)) <> 400
  /\ (exists rest,
        calls (snd (post_generate promptSchema_parse (answering (lit "ok"))
                      (Chat.mutation_request (lit "hi")) initial))
        = calls initial ++ CallGenerateText (trim (lit "  hi ")) :: rest)
  /\ (forall m,
        announced (fst (post_generate promptSchema_parse (answering (lit "ok"))
                          (Chat.mutation_request (lit "hi")) initial))
        = [m] ->
        Schema.prompt m = lit "hi").
Proof.
  apply (submitted_prompt_is_accepted promptSchema_parse (answering (lit "ok"))
           initial (Chat.mkState (lit "  hi ") false)
           (Chat.mkState (lit "  hi ") true) (lit "hi")).
  - reflexivity.
  - reflexivity.
Defined.

(** While generating, no key event sends anything. *)
Lemma keydown_while_generating (typed key : jsstring) (shiftKey : bool) :
  Chat.handleKeyDown key shiftKey (Chat.mkState typed true)
  = (Chat.mkState typed true, None).
Proof.
  unfold Chat.handleKeyDown. simpl.
  destruct (jsstring_eqb key (lit "Enter") && negb shiftKey); [|reflexivity].
  rewrite andb_false_r. reflexivity.
Qed.

(** X5: the Enter key and the send button agree.  When the button is
    enabled, Enter (without Shift) sends the trimmed text and marks the
    page as generating; when the button is disabled, no key event sends
    anything or changes the state. *)
Theorem enter_key_follows_send_button (st : Chat.State) :
  (Chat.isSubmitDisabled st = false ->
   Chat.handleKeyDown (lit "Enter") false st
   = (Chat.mkState (Chat.prompt st) true, Some (trim (Chat.prompt st))))
  /\ (Chat.isSubmitDisabled st = true ->
      forall key shiftKey, Chat.handleKeyDown key shiftKey st = (st, None)).
Proof.
  unfold Chat.isSubmitDisabled, Chat.handleKeyDown, Chat.handleSubmit.
  destruct (truthy (trim (Chat.prompt st))) eqn:Et; simpl.
  - destruct (N.ltb_spec 2000 (String_length (Chat.prompt st))) as [Hl | Hl]; simpl.
    + split; [discriminate|]. intros _ key shiftKey.
      destruct (jsstring_eqb key (lit "Enter") && negb shiftKey); [|reflexivity].
      apply N.leb_gt in Hl. rewrite Hl. reflexivity.
    + pose proof (trim_length (Chat.prompt st)) as Ht.
      assert (E1 : (String_length (Chat.prompt st) <=? 2000) = true)
        by (apply N.leb_le; exact Hl).
      assert (E2 : (2000 <? String_length (trim (Chat.prompt st))) = false)
        by (apply N.ltb_ge; lia).
      rewrite E1, E2. destruct (Chat.isGenerating st); simpl.
      * split; [discriminate|]. intros _ key shiftKey.
        destruct (jsstring_eqb key (lit "Enter") && negb shiftKey); reflexivity.
      * split; [reflexivity | discriminate].
  - split; [discriminate|]. intros _ key shiftKey.
    destruct (jsstring_eqb key (lit "Enter") && negb shiftKey); reflexivity.
Qed.

(** X6: a key event that sends a prompt leaves the page generating, and in
    that state the send button is disabled and no further key event sends
    anything, whatever is typed meanwhile. *)
Theorem no_second_send_while_generating
    (key : jsstring) (shiftKey : bool) (st st' : Chat.State) (q : jsstring) :
  Chat.handleKeyDown key shiftKey st = (st', Some q) ->
  Chat.isGenerating st = false
  /\ Chat.isGenerating st' = true
  /\ forall typed key' shiftKey',
       Chat.isSubmitDisabled (Chat.mkState typed (Chat.isGenerating st')) = true
       /\ snd (Chat.handleKeyDown key' shiftKey'
                 (Chat.mkState typed (Chat.isGenerating st'))) = None.
Proof.
  unfold Chat.handleKeyDown at 1.
  destruct (jsstring_eqb key (lit "Enter") && negb shiftKey); [|discriminate].
  destruct (truthy (trim (Chat.prompt st))
            && (String_length (Chat.prompt st) <=? 2000)); [|discriminate].
  destruct (Chat.isGenerating st) eqn:Eg; simpl; [discriminate|].
  intro Hs. destruct (handleSubmit_sends st st' q Hs) as (_ & -> & _).
  split; [reflexivity|]. split; [reflexivity|]. simpl.
  intros typed key' shiftKey'.
  assert (Hd : Chat.isSubmitDisabled (Chat.mkState typed true) = true).
  { unfold Chat.isSubmitDisabled. simpl. apply orb_true_r. }
  split; [exact Hd|].
  rewrite keydown_while_generating. reflexivity.
Qed.

Lemma no_second_send_while_generating_witness :
  Chat.isGenerating (Chat.mkState (lit " hi ") false) = false
  /\ Chat.isGenerating (Chat.mkState (lit " hi ") true) = true
  /\ forall typed key' shiftKey',
       Chat.isSubmitDisabled
         (Chat.mkState typed (Chat.isGenerating (Chat.mkState (lit " hi ") true)))
       = true
       /\ snd (Chat.handleKeyDown key' shiftKey'
                 (Chat.mkState typed
                    (Chat.isGenerating (Chat.mkState (lit " hi ") true)))) = None.
Proof.
  apply (no_second_send_while_generating (lit "Enter") false
           (Chat.mkState (lit " hi ") false) (Chat.mkState (lit " hi ") true)
           (lit "hi")).
  reflexivity.
Defined.

(** X7: the token count the page shows under a message never exceeds the
    [tokens] field the server returned for it.  For a successful generation
    the message announced in the body is in the store, the page's count for
    it is at most the body's [tokens], and the two are equal whenever
    trimming leaves the generator's output unchanged. *)
Theorem displayed_tokens_at_most_tokens_field
    (schema_parse : json -> list ZodIssue + jsstring)
    (env : Env) (req_body : json) (w : World) (p text : jsstring) :
  schema_parse req_body = inr p ->
  valid_prompt p ->
  generate_outcome env p = inr text ->
  exists m tokens,
    fst (post_generate schema_parse env req_body w)
    = mkResponse 200
        (GenerateBody (id m) (Schema.prompt m) (Schema.response m) (createdAt m)
           tokens)
    /\ In m (Storage.values (storage (snd (post_generate schema_parse env req_body w))))
    /\ Chat.displayed_tokens m <= tokens
    /\ (trim text = text -> Chat.displayed_tokens m = tokens).
Proof.
  intros Hp Hv Hg.
  rewrite (path_success schema_parse env req_body w p text Hp Hv Hg).
  exists (mkMessage (Storage.fresh_id (storage w)) (trim p) (trim text) (now env)).
  exists (floor_div4 (String_length text)).
  unfold Chat.displayed_tokens, floor_div4. simpl.
  split; [reflexivity|]. split.
  - rewrite values_app. apply in_or_app. right. left. reflexivity.
  - split.
    + apply N.Div0.div_le_mono. apply trim_length.
    + intro Ht. rewrite Ht. reflexivity.
Qed.

Lemma displayed_tokens_at_most_tokens_field_witness :
  exists m tokens,
    fst (post_generate promptSchema_parse (answering (lit "abc "))
           (prompt_body (lit "hi")) initial)
    = mkResponse 200
        (GenerateBody (id m) (Schema.prompt m) (Schema.response m) (createdAt m)
           tokens)
    /\ In m (Storage.values
               (storage (snd (post_generate promptSchema_parse (answering (lit "abc "))
                                (prompt_body (lit "hi")) initial))))
    /\ Chat.displayed_tokens m <= tokens
    /\ (trim (lit "abc ") = lit "abc " -> Chat.displayed_tokens m = tokens).
Proof.
  apply (displayed_tokens_at_most_tokens_field promptSchema_parse
           (answering (lit "abc ")) (prompt_body (lit "hi")) initial (lit "hi")).
  - reflexivity.
  - valid_prompt_by_computation.
  - reflexivity.
Defined.

(** ** The request logger *)



(** ** Reading after writing *)

(** X9: a [GET /api/messages] served right after a [POST /api/generate]
    lists what was in the store before, followed by exactly the message the
    POST's response announced: one message after a 200, none after a 400 or
    a 500. *)
Theorem get_after_post
    (schema_parse : json -> list ZodIssue + jsstring)
    (env : Env) (req_body : json) (w : World) :
  fst (get_messages (snd (post_generate schema_parse env req_body w)))
  = mkResponse 200
      (MessagesBody
         (Storage.values (storage w)
          ++ announced (fst (post_generate schema_parse env req_body w))))
  /\ (List.length (announced (fst (post_generate schema_parse env req_body w)))
      = if (status (fst (post_generate schema_parse env req_body w)) =? 200)
        then 1%nat else 0%nat).
Proof.
  rewrite get_messages_response.
  destruct (post_generate_cases schema_parse env req_body w)
    as [(error & details & H) | [(p & message & Hv & H) | (p & text & Hv & H)]];
    rewrite H; simpl.
  - rewrite app_nil_r. split; reflexivity.
  - rewrite app_nil_r. split; reflexivity.
  - rewrite values_app. split; reflexivity.
Qed.

(** ** The retry button *)

(** X10: "Try again" sends the trimmed text without the checks of
    [handleSubmit].  When [handleSubmit] would send, retry sends the same
    prompt; when [handleSubmit] would send nothing (the trimmed text is
    empty or longer than 2000 code units), retry still sends it, and the
    server, whether its schema rejects the body or passes the prompt on
    unchanged, answers 400 and leaves the world as it was. *)
Theorem retry_skips_client_checks
    (schema_parse : json -> list ZodIssue + jsstring)
    (env : Env) (w : World) (st : Chat.State) :
  (exists issues,
     schema_parse (Chat.mutation_request (trim (Chat.prompt st))) = inl issues)
  \/ schema_parse (Chat.mutation_request (trim (Chat.prompt st)))
     = inr (trim (Chat.prompt st)) ->
  snd (Chat.retry st) = Some (trim (Chat.prompt st))
  /\ (forall st' q, Chat.handleSubmit st = (st', Some q) -> snd (Chat.retry st) = Some q)
  /\ (snd (Chat.handleSubmit st) = None ->
      status (fst (post_generate schema_parse env
                     (Chat.mutation_request (trim (Chat.prompt st))) w)) = 400
      /\ snd (post_generate schema_parse env
                (Chat.mutation_request (trim (Chat.prompt st))) w) = w).
Proof.
  intro Hs. split; [reflexivity|]. split.
  - intros st' q Hq. destruct (handleSubmit_sends st st' q Hq) as (-> & _).
    reflexivity.
  - destruct Hs as [[issues Hz] | Hp].
    { intros _. rewrite (path_zod_error schema_parse env _ w issues Hz).
      split; reflexivity. }
    unfold Chat.handleSubmit.
    destruct (truthy (trim (Chat.prompt st))) eqn:Et; simpl.
    + destruct (N.ltb_spec 2000 (String_length (trim (Chat.prompt st)))) as [Hl | Hl];
        simpl; [intros _ | discriminate].
      assert (Hne : trim (trim (Chat.prompt st)) <> []).
      { rewrite trim_idempotent. intro E. rewrite E in Et. discriminate Et. }
      rewrite (path_too_long schema_parse env _ w _ Hp Hne Hl).
      split; reflexivity.
    + intros _.
      assert (He : trim (trim (Chat.prompt st)) = []).
      { rewrite trim_idempotent. destruct (trim (Chat.prompt st)); [reflexivity|].
        discriminate Et. }
      rewrite (path_empty schema_parse env _ w _ Hp He).
      split; reflexivity.
Qed.

Lemma retry_skips_client_checks_witness :
  snd (Chat.retry (Chat.mkState (lit "   ") false)) = Some (trim (lit "   "))
  /\ (forall st' q,
        Chat.handleSubmit (Chat.mkState (lit "   ") false) = (st', Some q) ->
        snd (Chat.retry (Chat.mkState (lit "   ") false)) = Some q)
  /\ (snd (Chat.handleSubmit (Chat.mkState (lit "   ") false)) = None ->
      status (fst (post_generate promptSchema_parse (answering (lit "ok"))
                     (Chat.mutation_request (trim (lit "   "))) initial)) = 400
      /\ snd (post_generate promptSchema_parse (answering (lit "ok"))
                (Chat.mutation_request (trim (lit "   "))) initial) = initial).
Proof.
  apply (retry_skips_client_checks promptSchema_parse (answering (lit "ok")) initial
           (Chat.mkState (lit "   ") false)).
  right. reflexivity.
Defined.
